(** * Devr3/app.py: tag extraction and profile documents

    A shallow embedding of the pure core of [src/Devr3/app.py]:
    [extract_expertise_tags], [get_pr_insights], [prepare_documents] and
    [create_vector_store], together with the Python built-ins they call
    ([str.lower], [str.split], [len], [str.join], [set], [dict.get],
    subscripting and [+] on strings).

    Conventions.
    - A Python [str] is a [string]; each character is one code point below
      256 (the Latin-1 range), so [String.length] is Python's [len].
    - The values that reach the functions are JSON strings or JSON null:
      [pyval].
    - A user is a Python dict with string keys: [gmap string pyval].
    - A call either returns or raises: [result]. *)

From Stdlib Require Import Ascii NArith ZArith Bool Lia.
From stdpp Require Import base option list gmap strings.

Local Open Scope N_scope.

(** ** Python values and exceptions *)

Inductive pyval : Type :=
  | VNone
  | VStr (s : string).

Inductive exn : Type :=
  | KeyError (key : string)
  | TypeError
  | OtherException (name : string)
  | KeyboardInterrupt
  | SystemExit.

(** [isinstance(e, Exception)]: what [except Exception] catches. *)
Definition is_Exception (e : exn) : bool :=
  match e with
  | KeyboardInterrupt | SystemExit => false
  | _ => true
  end.

Inductive result (A : Type) : Type :=
  | Returns (a : A)
  | Raises (e : exn).
Arguments Returns {A} a.
Arguments Raises {A} e.

Definition bind {A B : Type} (r : result A) (k : A -> result B) : result B :=
  match r with
  | Returns a => k a
  | Raises e => Raises e
  end.

Notation "x <-! r ; k" := (bind r (fun x => k))
  (at level 100, r at next level, right associativity).

(** ** Built-in string operations *)

Module Py.

(** [c.isspace()] for a code point below 256: TAB..CR, FS..US, SPACE,
    NEL and NBSP.  [str.split()] splits on exactly these. *)
Definition isspace (c : ascii) : bool :=
  let n := N_of_ascii c in
  ((9 <=? n) && (n <=? 13)) || ((28 <=? n) && (n <=? 32))
  || (n =? 133) || (n =? 160).

(** [c.lower()] for a code point below 256: A..Z and the accented capitals
    0xC0..0xDE (the multiplication sign 0xD7 apart) move up by 32. *)
Definition lower_char (c : ascii) : ascii :=
  let n := N_of_ascii c in
  if ((65 <=? n) && (n <=? 90))
     || ((192 <=? n) && (n <=? 222) && negb (n =? 215))
  then ascii_of_N (n + 32)
  else c.

Fixpoint lower (s : string) : string :=
  match s with
  | EmptyString => EmptyString
  | String c rest => String (lower_char c) (lower rest)
  end.

(** The word collected so far, emitted when a separator or the end of
    the text is reached; an empty run emits nothing. *)
Definition flush (word : string) : list string :=
  match word with
  | EmptyString => []
  | _ => [word]
  end.

Fixpoint split_from (word : string) (s : string) : list string :=
  match s with
  | EmptyString => flush word
  | String c rest =>
      if isspace c then flush word ++ split_from EmptyString rest
      else split_from (word +:+ String c EmptyString) rest
  end.

(** [s.split()]: maximal runs of non-whitespace characters, in order. *)
Definition split (s : string) : list string := split_from EmptyString s.

(** [sep.join(items)]. *)
Definition join (sep : string) (items : list string) : string :=
  String.concat sep items.

(** [not v]: [None] and the empty string are falsy. *)
Definition not_ (v : pyval) : bool :=
  match v with
  | VNone => true
  | VStr EmptyString => true
  | VStr _ => false
  end.

(** [a + b]: concatenation of two strings, [TypeError] when either
    operand is [None]. *)
Definition add (a b : pyval) : result string :=
  match a, b with
  | VStr x, VStr y => Returns (x +:+ y)
  | _, _ => Raises TypeError
  end.

(** [format(v)] as used by an f-string replacement field. *)
Definition format (v : pyval) : string :=
  match v with
  | VNone => "None"
  | VStr s => s
  end.

(** [d[key]]: [KeyError] when the key is absent. *)
Definition getitem (d : gmap string pyval) (key : string) : result pyval :=
  match d !! key with
  | Some v => Returns v
  | None => Raises (KeyError key)
  end.

(** [d.get(key, default)]. *)
Definition get (d : gmap string pyval) (key : string) (default : pyval)
  : pyval :=
  match d !! key with
  | Some v => v
  | None => default
  end.

End Py.

(** ** Tag extraction (app.py, lines 75-86) *)

(** [f"#{word}"]. *)
Definition hash_tag (word : string) : string := "#" +:+ word.

(** [[f"#{word}" for word in words if len(word) > 2]]. *)
Definition tags_of_words (words : list string) : list string :=
  hash_tag <$> filter (fun word => (2 < String.length word)%nat) words.

(** [None] is falsy, so only a non-empty string reaches [bio.lower()]. *)
Definition extract_expertise_tags (bio : pyval) : list string :=
  if Py.not_ bio then []
  else
    match bio with
    | VStr s =>
        let words := Py.split (Py.lower s) in
        let tags := tags_of_words words in
        tags
    | VNone => []
    end.

(** Python leaves the iteration order of a [set] unspecified, and for
    strings it changes from one process to the next.  [list(set(xs))] is
    therefore modelled relative to an enumeration [set_order] of finite
    sets; the theorems assume only that it lists every element once
    ([set_order_spec]) and hold for every such enumeration, hence for
    whatever order a given call happens to produce. *)
Definition set_order_spec (set_order : gset string -> list string) : Prop :=
  forall s : gset string, set_order s ≡ₚ elements s.

Section PrInsights.
Variable set_order : gset string -> list string.

Definition get_pr_insights (pr_title pr_body : pyval)
  : result (list string) :=
  titled <-! Py.add pr_title (VStr " ");
  text <-! Py.add (VStr titled) pr_body;
  let words := Py.split (Py.lower text) in
  Returns (set_order (list_to_set (tags_of_words words))).
End PrInsights.

(** ** Profile documents (app.py, lines 90-102) *)

Record Metadata : Type := mkMetadata {
  username : pyval;
  role : pyval;
  expertise : list string
}.

Record Document : Type := mkDocument {
  page_content : string;
  metadata : Metadata
}.

(** Line 96: [tags = [f"#{name}", f"#{role}"] + expertise_tags]. *)
Definition profile_tags (name role_ : pyval) (expertise_tags : list string)
  : list string :=
  [hash_tag (Py.format name); hash_tag (Py.format role_)] ++ expertise_tags.

(** Lines 98-101: the [Document] appended for one user. *)
Definition make_document (name role_ : pyval) (expertise_tags : list string)
  : Document :=
  let tags := profile_tags name role_ expertise_tags in
  {| page_content := Py.join " " tags;
     metadata := {| username := name;
                    role := role_;
                    expertise := expertise_tags |} |}.

(** The body of the [for] loop, lines 93-101. *)
Definition build_document (user : gmap string pyval) : result Document :=
  name <-! Py.getitem user "login";
  role_ <-! Py.getitem user "role";
  let expertise_tags :=
    extract_expertise_tags (Py.get user "bio" (VStr "")) in
  Returns (make_document name role_ expertise_tags).

Fixpoint prepare_documents_loop (documents : list Document)
    (users : list (gmap string pyval)) : result (list Document) :=
  match users with
  | [] => Returns documents
  | user :: rest =>
      doc <-! build_document user;
      prepare_documents_loop (documents ++ [doc]) rest
  end.

Definition prepare_documents (users : list (gmap string pyval))
  : result (list Document) :=
  prepare_documents_loop [] users.

(** ** Index construction (app.py, lines 36-42) *)

(** What [create_vector_store] writes to standard output: the one line
    [Error initializing FAISS vector store: {e}]. *)
Inductive output : Type :=
  | PrintVectorStoreError (e : exn).

Section VectorStore.
(** The FAISS index type and [FAISS.from_documents(_, embeddings)] are
    library code; the function is taken as a parameter. *)
Variable Store : Type.
Variable from_documents : list Document -> result Store.

(** The printed lines and the outcome; Python's [None] is [None]. *)
Definition create_vector_store (documents : list Document)
  : list output * result (option Store) :=
  match from_documents documents with
  | Returns store => ([], Returns (Some store))
  | Raises e =>
      if is_Exception e
      then ([PrintVectorStoreError e], Returns None)
      else ([], Raises e)
  end.
End VectorStore.

(** ** The extraction algorithm of the specification

    Follows the wording of section 4.1: lowercase, split on whitespace,
    discard tokens of length at most 2, prefix with [#], deduplicate. *)
Definition extract_spec (text : string) : gset string :=
  let tokens := Py.split (Py.lower text) in
  let kept := filter (fun t => ¬ (String.length t ≤ 2)%nat) tokens in
  list_to_set (String "#" <$> kept).

(** The tag set of a profile in the words of section 4.2: the name tag and
    the role tag together with the extraction on the bio. *)
Definition spec_tag_set (name role_ bio : string) : gset string :=
  {[ String "#" name; String "#" role_ ]} ∪ extract_spec bio.

(** The derived text of section 4.2: the tags of the set, each one once,
    joined by single spaces in some order. *)
Definition derived_text_of (tags : gset string) (text : string) : Prop :=
  exists order,
    NoDup order /\ list_to_set order = tags /\ text = Py.join " " order.

(** The text of a bio as the specification sees it: null and absent bios
    are empty texts. *)
Definition bio_text (bio : pyval) : string :=
  match bio with
  | VNone => ""
  | VStr s => s
  end.

(** A text without any whitespace character. *)
Fixpoint no_space (s : string) : bool :=
  match s with
  | EmptyString => true
  | String c rest => negb (Py.isspace c) && no_space rest
  end.

(** A tag as section 8 describes it: [#] first, at least 4 characters. *)
Definition well_formed_tag (t : string) : Prop :=
  String.get 0 t = Some "#"%char /\ (4 <= String.length t)%nat.

(** The users [prepare_documents] can subscript: both keys are present. *)
Definition has_login_and_role (user : gmap string pyval) : Prop :=
  is_Some (user !! "login") /\ is_Some (user !! "role").


(** ** Fetching users (app.py, lines 46-71)

    The process environment and [requests.get] are parameters.  What the
    code prints and requests is recorded as a list of [event]s in program
    order, next to the outcome of the call. *)

(** The answer of [requests.get]: status, body text and the body parsed by
    [response.json()] (a JSON array of objects for the endpoints used; a
    body that does not parse raises).  The values of an entry are strings
    or null, as the host documents [login] and [bio]; an answer that carries
    another JSON type there is outside the model, and the properties of
    fetched users below are stated for answers of this shape. *)
Record Response : Type := mkResponse {
  status_code : Z;
  text : string;
  json : result (list (gmap string pyval))
}.

Inductive event : Type :=
  | HttpGet (url : string) (headers : gmap string string)
  | PrintMissingCredentials
  | PrintInvalidUserType
  | PrintFetchFailed (user_type : string) (status : Z) (body : string)
  | Stdout (line : output)
  | PrintStoreCreated
  | PrintSkipping.

Definition io (A : Type) : Type := (list event * result A)%type.

Definition io_ret {A : Type} (a : A) : io A := ([], Returns a).

Definition io_emit (e : event) : io unit := ([e], Returns tt).

Definition io_lift {A : Type} (r : result A) : io A := ([], r).

Definition io_bind {A B : Type} (m : io A) (k : A -> io B) : io B :=
  match m with
  | (trace, Returns a) => let (trace', r) := k a in (trace ++ trace', r)
  | (trace, Raises e) => (trace, Raises e)
  end.

Notation "x <-~ m ; k" := (io_bind m (fun x => k))
  (at level 100, m at next level, right associativity).

(** [os.getenv(key)]: [None] when the variable is not set. *)
Definition getenv (environ : gmap string string) (key : string) : pyval :=
  match environ !! key with
  | Some v => VStr v
  | None => VNone
  end.

(** One element of the comprehension of line 68. *)
Definition user_record (user_type : string) (user : gmap string pyval)
  : result (gmap string pyval) :=
  login <-! Py.getitem user "login";
  let bio := Py.get user "bio" (VStr "") in
  Returns {[ "login" := login; "bio" := bio; "role" := VStr user_type ]}.

Fixpoint user_records (user_type : string) (users : list (gmap string pyval))
  : result (list (gmap string pyval)) :=
  match users with
  | [] => Returns []
  | user :: rest =>
      record <-! user_record user_type user;
      records <-! user_records user_type rest;
      Returns (record :: records)
  end.

(** Lines 56-62: the endpoint for a user type, if there is one. *)
Definition endpoint (repo_owner repo_name : pyval) (user_type : string)
  : option string :=
  if String.eqb user_type "contributors"
  then Some ("https://api.github.com/repos/" +:+ Py.format repo_owner
             +:+ "/" +:+ Py.format repo_name +:+ "/contributors")
  else if String.eqb user_type "reviewers"
  then Some ("https://api.github.com/repos/" +:+ Py.format repo_owner
             +:+ "/" +:+ Py.format repo_name +:+ "/collaborators")
  else None.

(** Line 64. *)
Definition request_headers (github_token : pyval) : gmap string string :=
  {[ "Authorization" := "token " +:+ Py.format github_token;
     "Accept" := "application/vnd.github.v3+json" ]}.

Section Host.
Variable environ : gmap string string.
Variable requests_get : string -> gmap string string -> result Response.

Definition fetch_github_users (user_type : string)
  : io (list (gmap string pyval)) :=
  let github_token := getenv environ "GITHUB_TOKEN" in
  let repo_owner := getenv environ "GITHUB_REPO_OWNER" in
  let repo_name := getenv environ "GITHUB_REPO_NAME" in
  if Py.not_ github_token || Py.not_ repo_owner || Py.not_ repo_name
  then
    _ <-~ io_emit PrintMissingCredentials;
    io_ret []
  else
    match endpoint repo_owner repo_name user_type with
    | None =>
        _ <-~ io_emit PrintInvalidUserType;
        io_ret []
    | Some url =>
        let headers := request_headers github_token in
        _ <-~ io_emit (HttpGet url headers);
        response <-~ io_lift (requests_get url headers);
        if (status_code response =? 200)%Z
        then
          users <-~ io_lift (json response);
          io_lift (user_records user_type users)
        else
          _ <-~ io_emit (PrintFetchFailed user_type (status_code response)
                           (text response));
          io_ret []
    end.

(** ** Main execution (app.py, lines 152-159)

    The outcome is the value left in the global [vector_store]. *)
Variable Store : Type.
Variable from_documents : list Document -> result Store.

Definition main_execution : io (option Store) :=
  contributors <-~ fetch_github_users "contributors";
  reviewers <-~ fetch_github_users "reviewers";
  let users := contributors ++ reviewers in
  match users with
  | _ :: _ =>
      user_docs <-~ io_lift (prepare_documents users);
      vector_store <-~
        (let (printed, outcome) :=
           create_vector_store Store from_documents user_docs in
         (Stdout <$> printed, outcome));
      _ <-~ io_emit PrintStoreCreated;
      io_ret vector_store
  | [] =>
      _ <-~ io_emit PrintSkipping;
      io_ret None
  end.
End Host.

(** A text all of whose characters are unchanged by [lower]. *)
Definition is_lower (s : string) : Prop := Py.lower s = s.

(** Whether an event is a request to the host. *)
Definition is_request (e : event) : bool :=
  match e with
  | HttpGet _ _ => true
  | _ => false
  end.

(** A credential that [if not ...] rejects: unset or empty. *)
Definition unset (environ : gmap string string) (key : string) : Prop :=
  environ !! key = None \/ environ !! key = Some "".

(** All three credentials pass the check of line 52. *)
Definition configured (environ : gmap string string) : Prop :=
  ~ unset environ "GITHUB_TOKEN" /\ ~ unset environ "GITHUB_REPO_OWNER"
  /\ ~ unset environ "GITHUB_REPO_NAME".

(** ** Sample inputs *)

Definition alice : gmap string pyval :=
  {[ "login" := VStr "alice"; "role" := VStr "contributors";
     "bio" := VStr "Backend rust Systems" ]}.

(** A collaborator whose bio is [null] on the host. *)
Definition bob : gmap string pyval :=
  {[ "login" := VStr "bob"; "role" := VStr "reviewers"; "bio" := VNone ]}.

(** A profile with an empty login. *)
Definition nameless : gmap string pyval :=
  {[ "login" := VStr ""; "role" := VStr "contributors";
     "bio" := VStr "rust" ]}.

(** A reviewer whose bio mentions their own name and role. *)
Definition carol : gmap string pyval :=
  {[ "login" := VStr "carol"; "role" := VStr "reviewers";
     "bio" := VStr "Carol leads the reviewers" ]}.

(** A contributor whose bio repeats a word. *)
Definition erin : gmap string pyval :=
  {[ "login" := VStr "erin"; "role" := VStr "contributors";
     "bio" := VStr "rust rust" ]}.

(** A build whose store is the number of documents indexed. *)
Definition counting_build (documents : list Document) : result nat :=
  Returns (length documents).

(** A build that always fails with an ordinary exception. *)
Definition failing_build (_ : list Document) : result unit :=
  Raises (OtherException "RuntimeError").

(** A process environment with all three credentials. *)
Definition credentials : gmap string string :=
  {[ "GITHUB_TOKEN" := "t0k3n"; "GITHUB_REPO_OWNER" := "acme";
     "GITHUB_REPO_NAME" := "widgets" ]}.

(** A host that lists two contributors and refuses the collaborators. *)
Definition sample_host (url : string) (_ : gmap string string)
  : result Response :=
  if String.eqb url "https://api.github.com/repos/acme/widgets/contributors"
  then Returns {| status_code := 200; text := "";
                  json := Returns [ {[ "login" := VStr "alice" ]};
                                    {[ "login" := VStr "bob";
                                       "bio" := VNone ]} ] |}
  else Returns {| status_code := 403; text := "Forbidden";
                  json := Returns [] |}.

(** A host whose answer has an entry without login. *)
Definition broken_host (_ : string) (_ : gmap string string)
  : result Response :=
  Returns {| status_code := 200; text := "";
             json := Returns [ {[ "login" := VStr "alice" ]};
                               {[ "bio" := VStr "rust" ]} ] |}.

(** A user record without role. *)
Definition roleless : gmap string pyval :=
  {[ "login" := VStr "dave"; "bio" := VStr "rust" ]}.

(** * Properties *)

Local Close Scope N_scope.

(** ** The built-ins on sample texts *)

Example split_runs_of_whitespace :
  Py.split ("  fix " +:+ String "010" (String "009" "the  bug "))
  = ["fix"; "the"; "bug"].
Proof. reflexivity. Qed.

Example split_blank : Py.split "" = [] /\ Py.split "   " = [].
Proof. split; reflexivity. Qed.

Example lower_ascii : Py.lower "Rust-LANG v2" = "rust-lang v2".
Proof. reflexivity. Qed.

Example lower_accented_capital :
  Py.lower (String "201" "") = String "233" ""
  /\ Py.lower (String "215" "") = String "215" "".
Proof. split; reflexivity. Qed.

Example join_tags : Py.join " " ["#a"; "#b"; "#c"] = "#a #b #c".
Proof. reflexivity. Qed.

Example extract_expertise_tags_sample :
  extract_expertise_tags (VStr "Backend Rust a to systems")
  = ["#backend"; "#rust"; "#systems"].
Proof. reflexivity. Qed.

(** ** Splitting and lowercasing *)

Lemma no_space_append (a b : string) :
  no_space (a +:+ b) = no_space a && no_space b.
Proof.
  induction a as [|c a IH]; [done|].
  change (no_space (String c (a +:+ b))
          = no_space (String c a) && no_space b).
  cbn. by rewrite IH, andb_assoc.
Qed.

(** Every word that [split] returns is non-empty and free of whitespace. *)
Lemma split_from_words (s : string) :
  forall word,
    no_space word = true ->
    Forall (fun w => w <> EmptyString /\ no_space w = true)
      (Py.split_from word s).
Proof.
  induction s as [|c rest IH]; intros word Hword; cbn.
  - destruct word; repeat constructor; done.
  - destruct (Py.isspace c) eqn:Hc.
    + apply Forall_app. split; [|by apply IH].
      destruct word; repeat constructor; done.
    + apply IH. rewrite no_space_append, Hword. cbn. by rewrite Hc.
Qed.

Lemma split_words (s : string) :
  Forall (fun w => w <> EmptyString /\ no_space w = true) (Py.split s).
Proof. by apply split_from_words. Qed.

Lemma lower_length (s : string) :
  String.length (Py.lower s) = String.length s.
Proof. induction s as [|c s IH]; [done|]. cbn. by rewrite IH. Qed.

(** ** Tags *)

Lemma append_assoc (a b c : string) : (a +:+ b) +:+ c = a +:+ (b +:+ c).
Proof.
  induction a as [|x a IH]; [done|].
  change (String x ((a +:+ b) +:+ c) = String x (a +:+ (b +:+ c))).
  by rewrite IH.
Qed.

Lemma hash_tag_cons (word : string) : hash_tag word = String "#" word.
Proof. reflexivity. Qed.

Lemma hash_tag_inj (v w : string) : hash_tag v = hash_tag w -> v = w.
Proof. rewrite !hash_tag_cons. by intros [= ->]. Qed.

Lemma hash_tag_length (word : string) :
  String.length (hash_tag word) = S (String.length word).
Proof. reflexivity. Qed.

Lemma elem_of_tags_of_words (t : string) (words : list string) :
  t ∈ tags_of_words words <->
  exists word, t = hash_tag word /\ word ∈ words /\ 2 < String.length word.
Proof.
  unfold tags_of_words. rewrite list_elem_of_fmap.
  split; intros (word & Ht & Hw); exists word.
  - apply list_elem_of_filter in Hw. tauto.
  - split; [done|]. apply list_elem_of_filter. tauto.
Qed.

Lemma hash_tag_elem_of_tags_of_words (word : string) (words : list string) :
  hash_tag word ∈ tags_of_words words <->
  word ∈ words /\ 2 < String.length word.
Proof.
  rewrite elem_of_tags_of_words. split.
  - intros (w & Heq & Hw). apply hash_tag_inj in Heq. by subst.
  - intros Hw. by exists word.
Qed.

Lemma tags_of_words_well_formed (words : list string) :
  Forall well_formed_tag (tags_of_words words).
Proof.
  apply Forall_forall. intros t Ht.
  apply elem_of_tags_of_words in Ht as (word & -> & _ & Hlen).
  split; [reflexivity|]. rewrite hash_tag_length. lia.
Qed.

(** The guard [if not bio] agrees with running the comprehension on the
    empty text. *)
Lemma extract_expertise_tags_text (bio : pyval) :
  extract_expertise_tags bio
  = tags_of_words (Py.split (Py.lower (bio_text bio))).
Proof. by destruct bio as [|[|c s]]. Qed.

Lemma tags_of_words_spec (text : string) :
  list_to_set (tags_of_words (Py.split (Py.lower text))) = extract_spec text.
Proof.
  unfold extract_spec, tags_of_words. f_equal.
  generalize (Py.split (Py.lower text)). intros tokens.
  induction tokens as [|t tokens IH]; [done|].
  rewrite !filter_cons. repeat case_decide; try lia; by rewrite ?fmap_cons, IH.
Qed.

(** ** Enumerating a set *)

Section SetOrder.
Variable set_order : gset string -> list string.
Hypothesis set_order_ok : set_order_spec set_order.

Lemma elem_of_set_order (s : gset string) (x : string) :
  x ∈ set_order s <-> x ∈ s.
Proof. by rewrite (set_order_ok s), elem_of_elements. Qed.

Lemma NoDup_set_order (s : gset string) : NoDup (set_order s).
Proof. rewrite (set_order_ok s). apply NoDup_elements. Qed.

Lemma list_to_set_set_order (s : gset string) :
  list_to_set (set_order s) = s.
Proof. apply set_eq. intros x. by rewrite elem_of_list_to_set, elem_of_set_order. Qed.

Lemma get_pr_insights_strings (pr_title pr_body : string) :
  get_pr_insights set_order (VStr pr_title) (VStr pr_body)
  = Returns (set_order (extract_spec (pr_title +:+ " " +:+ pr_body))).
Proof.
  unfold get_pr_insights. simpl.
  by rewrite tags_of_words_spec, append_assoc.
Qed.

Lemma get_pr_insights_NoDup (pr_title pr_body : pyval) (tags : list string) :
  get_pr_insights set_order pr_title pr_body = Returns tags -> NoDup tags.
Proof.
  destruct pr_title as [|t], pr_body as [|b]; try discriminate.
  rewrite get_pr_insights_strings. intros [= <-]. apply NoDup_set_order.
Qed.

Lemma get_pr_insights_empty :
  get_pr_insights set_order (VStr "") (VStr "") = Returns [].
Proof.
  rewrite get_pr_insights_strings. f_equal.
  apply Permutation_nil_r. by rewrite (set_order_ok _).
Qed.
End SetOrder.

Lemma extract_expertise_tags_empty :
  extract_expertise_tags VNone = [] /\ extract_expertise_tags (VStr "") = [].
Proof. done. Qed.

(** ** The document loop *)

Lemma build_document_lookup (user : gmap string pyval) (name role_ : pyval) :
  user !! "login" = Some name ->
  user !! "role" = Some role_ ->
  build_document user
  = Returns (make_document name role_
               (extract_expertise_tags (Py.get user "bio" (VStr "")))).
Proof.
  intros Hn Hr. unfold build_document, Py.getitem. by rewrite Hn, Hr.
Qed.

Lemma build_document_Returns (user : gmap string pyval) (doc : Document) :
  build_document user = Returns doc ->
  exists name role_,
    user !! "login" = Some name /\ user !! "role" = Some role_
    /\ doc = make_document name role_
               (extract_expertise_tags (Py.get user "bio" (VStr ""))).
Proof.
  unfold build_document, Py.getitem.
  destruct (user !! "login") as [name|]; [|discriminate].
  destruct (user !! "role") as [role_|]; [|discriminate].
  intros [= <-]. by exists name, role_.
Qed.

Lemma build_document_Raises (user : gmap string pyval) (e : exn) :
  build_document user = Raises e ->
  (e = KeyError "login" /\ user !! "login" = None)
  \/ (e = KeyError "role" /\ user !! "role" = None).
Proof.
  unfold build_document, Py.getitem.
  destruct (user !! "login") as [name|]; [|intros [= <-]; by left].
  destruct (user !! "role") as [role_|]; [discriminate|].
  intros [= <-]. by right.
Qed.

(** The accumulator only grows at its end: the loop returns the documents
    it started with followed by one document per user, in order. *)
Lemma prepare_documents_loop_Returns (users : list (gmap string pyval)) :
  forall documents,
    Forall has_login_and_role users ->
    exists docs,
      prepare_documents_loop documents users = Returns (documents ++ docs)
      /\ Forall2 (fun user doc => build_document user = Returns doc)
           users docs.
Proof.
  induction users as [|user users IH]; intros documents Hall.
  - exists []. by rewrite app_nil_r.
  - apply Forall_cons in Hall as [[[name Hn] [role_ Hr]] Hall].
    destruct (IH (documents ++
                  [make_document name role_
                     (extract_expertise_tags (Py.get user "bio" (VStr "")))])
                Hall) as (docs & Hloop & Hdocs).
    eexists (_ :: docs). cbn.
    rewrite (build_document_lookup user name role_ Hn Hr). cbn.
    rewrite Hloop, <- app_assoc. split; [done|].
    constructor; [|done]. by apply build_document_lookup.
Qed.

Lemma prepare_documents_loop_Raises (users : list (gmap string pyval)) :
  forall documents e,
    prepare_documents_loop documents users = Raises e ->
    exists user, user ∈ users /\ build_document user = Raises e.
Proof.
  induction users as [|user users IH]; intros documents e; [discriminate|].
  cbn. destruct (build_document user) as [doc|e'] eqn:Hdoc; cbn.
  - intros (u & Hu & He)%IH. exists u. split; [by right|done].
  - intros [= <-]. exists user. split; [by left|done].
Qed.

Lemma prepare_documents_Returns (users : list (gmap string pyval)) :
  Forall has_login_and_role users ->
  exists docs,
    prepare_documents users = Returns docs
    /\ Forall2 (fun user doc => build_document user = Returns doc) users docs.
Proof. apply (prepare_documents_loop_Returns users []). Qed.

Lemma profile_tags_cons (name role_ : pyval) (expertise_tags : list string) :
  profile_tags name role_ expertise_tags
  = hash_tag (Py.format name) :: hash_tag (Py.format role_) :: expertise_tags.
Proof. reflexivity. Qed.

(** ** Words of a concatenation *)

Lemma append_cons (c : ascii) (a b : string) :
  String c a +:+ b = String c (a +:+ b).
Proof. reflexivity. Qed.

Lemma append_empty_r (a : string) : a +:+ "" = a.
Proof.
  induction a as [|c a IH]; [done|]. by rewrite append_cons, IH.
Qed.

(** A whitespace character inside a text ends the word before it. *)
Lemma split_from_separator (a b word : string) (c : ascii) :
  Py.isspace c = true ->
  Py.split_from word (a +:+ String c b)
  = Py.split_from word a ++ Py.split_from "" b.
Proof.
  intros Hc. revert word.
  induction a as [|x a IH]; intros word.
  - change ("" +:+ String c b) with (String c b). cbn. by rewrite Hc.
  - rewrite append_cons. cbn. destruct (Py.isspace x).
    + by rewrite IH, app_assoc.
    + apply IH.
Qed.

Lemma split_append_space (a b : string) :
  Py.split (a +:+ " " +:+ b) = Py.split a ++ Py.split b.
Proof. by apply split_from_separator. Qed.

(** A text without whitespace extends the word in progress. *)
Lemma split_from_no_space (t s word : string) :
  no_space t = true ->
  Py.split_from word (t +:+ s) = Py.split_from (word +:+ t) s.
Proof.
  revert word. induction t as [|c t IH]; intros word Ht.
  - by rewrite append_empty_r.
  - cbn in Ht. apply andb_prop in Ht as [Hc Ht].
    apply negb_true_iff in Hc.
    rewrite append_cons. cbn. rewrite Hc, (IH _ Ht).
    by rewrite append_assoc.
Qed.

Lemma split_word (t : string) :
  t <> "" -> no_space t = true -> Py.split t = [t].
Proof.
  intros Hne Ht. unfold Py.split.
  rewrite <- (append_empty_r t) at 1.
  rewrite (split_from_no_space t "" "" Ht).
  change ("" +:+ t) with t. by destruct t.
Qed.

(** Splitting undoes joining with single spaces. *)
Lemma split_join (items : list string) :
  Forall (fun t => t <> "" /\ no_space t = true) items ->
  Py.split (Py.join " " items) = items.
Proof.
  induction items as [|t items IH]; [done|].
  intros [[Hne Ht] Hitems]%Forall_cons.
  destruct items as [|t' items]; [by apply split_word|].
  change (Py.join " " (t :: t' :: items))
    with (t +:+ " " +:+ Py.join " " (t' :: items)).
  by rewrite split_append_space, (IH Hitems), split_word.
Qed.

(** ** Lowercasing *)

Lemma lower_char_idemp (c : ascii) :
  Py.lower_char (Py.lower_char c) = Py.lower_char c.
Proof. by destruct c as [[] [] [] [] [] [] [] []]. Qed.

Lemma isspace_lower_char (c : ascii) :
  Py.isspace (Py.lower_char c) = Py.isspace c.
Proof. by destruct c as [[] [] [] [] [] [] [] []]. Qed.

Lemma lower_idemp (s : string) : Py.lower (Py.lower s) = Py.lower s.
Proof.
  induction s as [|c s IH]; [done|]. cbn. by rewrite lower_char_idemp, IH.
Qed.

Lemma lower_append (a b : string) :
  Py.lower (a +:+ b) = Py.lower a +:+ Py.lower b.
Proof.
  induction a as [|c a IH]; [done|].
  rewrite append_cons. cbn. by rewrite IH.
Qed.

Lemma no_space_lower (s : string) : no_space (Py.lower s) = no_space s.
Proof.
  induction s as [|c s IH]; [done|]. cbn. by rewrite isspace_lower_char, IH.
Qed.

(** Lowercasing moves no word boundary. *)
Lemma split_from_lower (s : string) :
  forall word,
    Py.split_from (Py.lower word) (Py.lower s)
    = Py.lower <$> Py.split_from word s.
Proof.
  induction s as [|c s IH]; intros word; cbn.
  - by destruct word.
  - rewrite isspace_lower_char. destruct (Py.isspace c).
    + rewrite fmap_app, <- (IH ""). by destruct word.
    + by rewrite <- IH, lower_append.
Qed.

Lemma split_lower (s : string) :
  Py.split (Py.lower s) = Py.lower <$> Py.split s.
Proof. apply (split_from_lower s ""). Qed.

Lemma tags_of_words_app (xs ys : list string) :
  tags_of_words (xs ++ ys) = tags_of_words xs ++ tags_of_words ys.
Proof. unfold tags_of_words. by rewrite filter_app, fmap_app. Qed.

Lemma tags_of_words_no_space (words : list string) :
  Forall (fun w => no_space w = true) words ->
  Forall (fun t => t <> "" /\ no_space t = true) (tags_of_words words).
Proof.
  intros Hwords. apply Forall_forall. intros t Ht.
  apply elem_of_tags_of_words in Ht as (w & -> & Hw & _).
  split; [done|]. rewrite hash_tag_cons. cbn.
  by apply (proj1 (Forall_forall _ _) Hwords).
Qed.

Lemma tags_of_words_lower (words : list string) :
  Forall is_lower words -> Forall is_lower (tags_of_words words).
Proof.
  intros Hwords. apply Forall_forall. intros t Ht.
  apply elem_of_tags_of_words in Ht as (w & -> & Hw & _).
  unfold is_lower. rewrite hash_tag_cons. cbn.
  f_equal. by apply (proj1 (Forall_forall _ _) Hwords).
Qed.

Lemma split_lower_words (s : string) :
  Forall (fun w => no_space w = true) (Py.split (Py.lower s))
  /\ Forall is_lower (Py.split (Py.lower s)).
Proof.
  split.
  - eapply Forall_impl; [apply split_words|]. by intros w [_ Hw].
  - rewrite split_lower. apply Forall_forall.
    intros w (v & -> & _)%list_elem_of_fmap. apply lower_idemp.
Qed.

(** * The claims *)

(** ** C1: duplicates *)

(** C1 (code defect).  The claim asks that neither extractor returns a
    duplicate tag.  [get_pr_insights] goes through a set and returns none
    ([get_pr_insights_NoDup]), but [extract_expertise_tags] returns its list
    comprehension as it is: on the bio "rust rust" it returns the tag
    [#rust] twice. *)
Theorem extract_expertise_tags_keeps_duplicates :
  extract_expertise_tags (VStr "rust rust") = ["#rust"; "#rust"]
  /\ ~ NoDup (extract_expertise_tags (VStr "rust rust")).
Proof.
  split; [reflexivity|].
  intros Hnd. apply NoDup_cons in Hnd as [Hnotin _].
  apply Hnotin. by left.
Qed.

(** ** C2: empty name or role *)

(** C2 (counterexample).  A user whose login is the empty string is not
    rejected: [prepare_documents] returns a document for it, with the bare
    name tag [#]. *)
Lemma empty_login_builds_document :
  nameless !! "login" = Some (VStr "")
  /\ prepare_documents [nameless]
     = Returns [ {| page_content := "# #contributors #rust";
                    metadata := {| username := VStr "";
                                   role := VStr "contributors";
                                   expertise := ["#rust"] |} |} ]
  /\ ~ (exists e, prepare_documents [nameless] = Raises e).
Proof.
  split; [reflexivity|]. split; [reflexivity|].
  intros [e He]. vm_compute in He. discriminate.
Qed.

(** C2 (amended).  [prepare_documents] does not look at whether a name or
    role is empty and has no [InvalidCandidate] failure: it returns exactly
    when every user carries a [login] and a [role] field, whatever their
    contents, and what it raises otherwise is the [KeyError] of a missing
    [login] or [role]. *)
Theorem prepare_documents_succeeds_iff_keys_present
    (users : list (gmap string pyval)) :
  ((exists docs, prepare_documents users = Returns docs)
   <-> Forall has_login_and_role users)
  /\ (forall e, prepare_documents users = Raises e ->
        e = KeyError "login" \/ e = KeyError "role").
Proof.
  split; [split|].
  - intros [docs Hdocs]. apply Forall_forall. intros user Huser.
    destruct (decide (has_login_and_role user)) as [|Hno]; [done|].
    exfalso. revert docs Hdocs. unfold prepare_documents.
    generalize (@nil Document).
    induction users as [|u users IH]; intros acc docs; [by inversion Huser|].
    cbn. destruct (build_document u) as [doc|e] eqn:Hdoc; [|discriminate].
    cbn. apply elem_of_cons in Huser as [->|Huser]; [|by apply IH].
    apply build_document_Returns in Hdoc as (n & r & Hn & Hr & _).
    destruct Hno. by split; eexists.
  - intros Hall.
    destruct (prepare_documents_Returns users Hall) as (docs & Hdocs & _).
    by exists docs.
  - intros e (user & _ & He)%prepare_documents_loop_Raises.
    apply build_document_Raises in He. tauto.
Qed.

(** ** C3: failures of the index build *)

(** C3 (counterexample).  When the underlying build raises an ordinary
    exception, [create_vector_store] prints it and returns [None]; the
    caller sees no exception. *)
Lemma create_vector_store_swallows_failure :
  failing_build [] = Raises (OtherException "RuntimeError")
  /\ is_Exception (OtherException "RuntimeError") = true
  /\ (create_vector_store unit failing_build []).2 = Returns None
  /\ ~ (exists e, (create_vector_store unit failing_build []).2 = Raises e).
Proof.
  repeat split; try reflexivity. intros [e He]. discriminate.
Qed.

(** C3 (amended).  A failure of the underlying build that is an
    [Exception] is caught: [create_vector_store] prints the error and
    returns [None].  Only what [except Exception] does not catch
    ([KeyboardInterrupt], [SystemExit]) reaches the caller. *)
Theorem create_vector_store_catches_Exception
    (Store : Type) (from_documents : list Document -> result Store)
    (documents : list Document) (e : exn) :
  from_documents documents = Raises e ->
  create_vector_store Store from_documents documents
  = if is_Exception e
    then ([PrintVectorStoreError e], Returns None)
    else ([], Raises e).
Proof. intros Hbuild. unfold create_vector_store. by rewrite Hbuild. Qed.

Lemma create_vector_store_catches_Exception_witness :
  failing_build [] = Raises (OtherException "RuntimeError")
  /\ create_vector_store unit failing_build []
     = ([PrintVectorStoreError (OtherException "RuntimeError")],
        Returns None).
Proof.
  split; [reflexivity|].
  apply (create_vector_store_catches_Exception unit failing_build []
           (OtherException "RuntimeError")).
  reflexivity.
Defined.

(** ** C4: the tag set of a profile *)

(** C4.  For a user with login [name], role [role_] and any bio (a text,
    [None] or absent), [prepare_documents] builds the document from the tag
    list [tags] of line 96; as a set, [tags] is the name tag and the role tag
    together with the tags the specification's extraction gives on the bio;
    [tags] contains the name tag, the role tag and every tag that
    [extract_expertise_tags] returns for the bio. *)
Theorem profile_tag_set (user : gmap string pyval) (name role_ : pyval) :
  user !! "login" = Some name ->
  user !! "role" = Some role_ ->
  let bio := Py.get user "bio" (VStr "") in
  let tags := profile_tags name role_ (extract_expertise_tags bio) in
  prepare_documents [user]
  = Returns [ {| page_content := Py.join " " tags;
                 metadata := {| username := name; role := role_;
                                expertise := extract_expertise_tags bio |} |} ]
  /\ list_to_set tags
     = ({[ hash_tag (Py.format name); hash_tag (Py.format role_) ]}
        ∪ extract_spec (bio_text bio) : gset string)
  /\ hash_tag (Py.format name) ∈ tags
  /\ hash_tag (Py.format role_) ∈ tags
  /\ (forall t, t ∈ extract_expertise_tags bio -> t ∈ tags).
Proof.
  intros Hn Hr bio tags. split; [|split].
  - unfold prepare_documents. cbn.
    by rewrite (build_document_lookup user name role_ Hn Hr).
  - unfold tags. rewrite profile_tags_cons, extract_expertise_tags_text.
    rewrite !list_to_set_cons, tags_of_words_spec.
    by rewrite (assoc_L (∪)).
  - unfold tags. rewrite profile_tags_cons.
    split; [by left|]. split; [right; by left|].
    intros t Ht. by do 2 right.
Qed.

Lemma profile_tag_set_witness :
  alice !! "login" = Some (VStr "alice")
  /\ alice !! "role" = Some (VStr "contributors")
  /\ list_to_set (profile_tags (VStr "alice") (VStr "contributors")
                    (extract_expertise_tags (Py.get alice "bio" (VStr ""))))
     = ({[ "#alice"; "#contributors" ]}
        ∪ extract_spec "Backend rust Systems" : gset string).
Proof.
  split; [reflexivity|]. split; [reflexivity|].
  apply (profile_tag_set alice (VStr "alice") (VStr "contributors"));
    reflexivity.
Defined.

(** ** C5: the shape of a tag *)

(** C5.  Every tag that [extract_expertise_tags] returns for a bio, and
    every tag that [get_pr_insights] returns for a title and a body, has
    [#] as its first character and at least 4 characters. *)
Theorem extracted_tags_well_formed
    (set_order : gset string -> list string) (bio : pyval)
    (pr_title pr_body : string) :
  set_order_spec set_order ->
  Forall well_formed_tag (extract_expertise_tags bio)
  /\ (exists tags,
        get_pr_insights set_order (VStr pr_title) (VStr pr_body)
        = Returns tags
        /\ Forall well_formed_tag tags)
  /\ (forall (title body : pyval) tags,
        get_pr_insights set_order title body = Returns tags ->
        Forall well_formed_tag tags).
Proof.
  intros Hso.
  assert (Hwf : forall s : string,
             Forall well_formed_tag
               (set_order
                  (list_to_set (tags_of_words (Py.split (Py.lower s)))))).
  { intros s. apply Forall_forall. intros t Ht.
    apply (elem_of_set_order set_order Hso) in Ht.
    apply elem_of_list_to_set in Ht. revert t Ht. apply Forall_forall.
    apply tags_of_words_well_formed. }
  split; [|split].
  - rewrite extract_expertise_tags_text. apply tags_of_words_well_formed.
  - eexists. split; [reflexivity|]. apply Hwf.
  - intros [|t] [|b] tags; try discriminate.
    intros [= <-]. apply Hwf.
Qed.

Lemma extracted_tags_well_formed_witness :
  set_order_spec elements
  /\ Forall well_formed_tag (extract_expertise_tags (VStr "Go is fun"))
  /\ exists tags,
       get_pr_insights elements (VStr "fix rust bug") (VStr "a systems issue")
       = Returns tags
       /\ Forall well_formed_tag tags.
Proof.
  assert (Hso : set_order_spec elements) by (intros s; reflexivity).
  split; [exact Hso|].
  destruct (extracted_tags_well_formed elements (VStr "Go is fun")
              "fix rust bug" "a systems issue" Hso) as (Hbio & Hpr & _).
  split; [exact Hbio|exact Hpr].
Defined.

(** ** C6: empty and null input *)

(** C6 (code defect).  [extract_expertise_tags] returns no tag for [None]
    and for the empty string ([extract_expertise_tags_empty]), and
    [get_pr_insights] returns none for an empty title and body
    ([get_pr_insights_empty]); but [get_pr_insights] has no guard for
    [None]: with a [None] title or a [None] body the concatenation of
    line 85 raises [TypeError]. *)
Theorem get_pr_insights_None_raises (set_order : gset string -> list string) :
  get_pr_insights set_order (VStr "") VNone = Raises TypeError
  /\ get_pr_insights set_order VNone VNone = Raises TypeError
  /\ (forall pr_title, get_pr_insights set_order pr_title VNone
                       = Raises TypeError)
  /\ (forall pr_body, get_pr_insights set_order VNone pr_body
                      = Raises TypeError).
Proof.
  do 2 (split; [reflexivity|]). split.
  - by intros [|t].
  - by intros [|b].
Qed.

(** ** C7: the derived text *)

(** A derived text splits back into the tags it was joined from, so it
    holds every tag of the set once. *)
Lemma derived_text_of_split (tags : gset string) (text : string) :
  (forall t, t ∈ tags -> t <> "" /\ no_space t = true) ->
  derived_text_of tags text ->
  NoDup (Py.split text) /\ list_to_set (Py.split text) = tags.
Proof.
  intros Htags (order & Hnd & Hset & ->).
  rewrite split_join; [done|].
  apply Forall_forall. intros t Ht. apply Htags.
  rewrite <- Hset. by apply elem_of_list_to_set.
Qed.

(** C7 (code defect).  The claim asks that [page_content] is the profile's
    tags joined by single spaces in a canonical order.  The order is fixed
    (name tag, role tag, bio words as they occur), but for a bio that repeats
    a word the text repeats the tag: for the bio "rust rust" the tag set is
    [#erin], [#contributors], [#rust], and the text holds [#rust] twice, so
    it is not that set joined in any order. *)
Theorem page_content_repeats_tag :
  prepare_documents [erin]
  = Returns [ {| page_content := "#erin #contributors #rust #rust";
                 metadata := {| username := VStr "erin";
                                role := VStr "contributors";
                                expertise := ["#rust"; "#rust"] |} |} ]
  /\ spec_tag_set "erin" "contributors" "rust rust"
     = {[ "#erin"; "#contributors"; "#rust" ]}
  /\ ~ derived_text_of (spec_tag_set "erin" "contributors" "rust rust")
        "#erin #contributors #rust #rust".
Proof.
  assert (Hset : spec_tag_set "erin" "contributors" "rust rust"
                 = {[ "#erin"; "#contributors"; "#rust" ]}).
  { unfold spec_tag_set. rewrite <- tags_of_words_spec.
    change (tags_of_words (Py.split (Py.lower "rust rust")))
      with ["#rust"; "#rust"].
    apply set_eq. intros t.
    rewrite !elem_of_union, elem_of_list_to_set, !elem_of_cons,
      elem_of_nil, !elem_of_singleton.
    tauto. }
  split; [reflexivity|]. split; [exact Hset|].
  intros Htext. apply derived_text_of_split in Htext as [Hnd _].
  - change (Py.split "#erin #contributors #rust #rust")
      with ["#erin"; "#contributors"; "#rust"; "#rust"] in Hnd.
    apply NoDup_cons in Hnd as [_ Hnd]. apply NoDup_cons in Hnd as [_ Hnd].
    apply NoDup_cons in Hnd as [Hnotin _]. apply Hnotin. by left.
  - intros t. rewrite Hset, !elem_of_union, !elem_of_singleton.
    by intros [[->| ->]| ->].
Qed.

(** ** C8: the query tags of a pull request *)

(** C8.  For a title and a body, [get_pr_insights] returns a list whose
    set of elements is the set the specification's extraction gives on the
    one string [pr_title + " " + pr_body]; the list repeats no tag. *)
Theorem get_pr_insights_extracts_joined_text
    (set_order : gset string -> list string) (pr_title pr_body : string) :
  set_order_spec set_order ->
  exists tags,
    get_pr_insights set_order (VStr pr_title) (VStr pr_body) = Returns tags
    /\ list_to_set tags = extract_spec (pr_title +:+ " " +:+ pr_body)
    /\ NoDup tags.
Proof.
  intros Hso. eexists. split; [by apply get_pr_insights_strings|].
  split; [by apply list_to_set_set_order|by apply NoDup_set_order].
Qed.

Lemma get_pr_insights_extracts_joined_text_witness :
  set_order_spec elements
  /\ exists tags,
       get_pr_insights elements (VStr "Fix Rust bug") (VStr "rust fix")
       = Returns tags
       /\ list_to_set tags = extract_spec "Fix Rust bug rust fix"
       /\ NoDup tags.
Proof.
  assert (Hso : set_order_spec elements) by (intros s; reflexivity).
  split; [exact Hso|].
  apply (get_pr_insights_extracts_joined_text elements
           "Fix Rust bug" "rust fix" Hso).
Defined.

(** ** C9: one document per user *)



(** ** C10: the metadata *)

(** C10 (counterexample).  The expertise list is not free of the name and
    role tags: a bio that mentions the login or the role yields those very
    tags. *)
Lemma expertise_contains_name_and_role_tag :
  carol !! "login" = Some (VStr "carol")
  /\ carol !! "role" = Some (VStr "reviewers")
  /\ prepare_documents [carol]
     = Returns [ {| page_content :=
                      "#carol #reviewers #carol #leads #the #reviewers";
                    metadata :=
                      {| username := VStr "carol";
                         role := VStr "reviewers";
                         expertise := ["#carol"; "#leads"; "#the";
                                       "#reviewers"] |} |} ]
  /\ hash_tag "carol" ∈ ["#carol"; "#leads"; "#the"; "#reviewers"]
  /\ hash_tag "reviewers" ∈ ["#carol"; "#leads"; "#the"; "#reviewers"].
Proof.
  repeat split; try reflexivity.
  - by left.
  - do 3 right. by left.
Qed.

(** C10 (amended).  The metadata of the document stores [username = login],
    [role = role] and [expertise = extract_expertise_tags(bio)]; the name tag
    and the role tag are the first two tags of [page_content] and are not
    added to the expertise list, which holds a tag [#w] exactly when [w] is a
    word of more than 2 characters of the lowercased bio. *)
Theorem metadata_fields (user : gmap string pyval) (name role_ : pyval) :
  user !! "login" = Some name ->
  user !! "role" = Some role_ ->
  let bio := Py.get user "bio" (VStr "") in
  exists doc,
    prepare_documents [user] = Returns [doc]
    /\ username (metadata doc) = name
    /\ role (metadata doc) = role_
    /\ expertise (metadata doc) = extract_expertise_tags bio
    /\ page_content doc
       = Py.join " " (hash_tag (Py.format name)
                      :: hash_tag (Py.format role_)
                      :: expertise (metadata doc))
    /\ (forall w, hash_tag w ∈ expertise (metadata doc)
                  <-> w ∈ Py.split (Py.lower (bio_text bio))
                      /\ 2 < String.length w).
Proof.
  intros Hn Hr bio. eexists. split.
  - unfold prepare_documents. cbn.
    by rewrite (build_document_lookup user name role_ Hn Hr).
  - cbn [metadata username role expertise page_content make_document].
    do 4 (split; [done|]). intros w.
    rewrite extract_expertise_tags_text.
    apply hash_tag_elem_of_tags_of_words.
Qed.

Lemma metadata_fields_witness :
  alice !! "login" = Some (VStr "alice")
  /\ alice !! "role" = Some (VStr "contributors")
  /\ exists doc,
       prepare_documents [alice] = Returns [doc]
       /\ username (metadata doc) = VStr "alice"
       /\ role (metadata doc) = VStr "contributors"
       /\ expertise (metadata doc) = ["#backend"; "#rust"; "#systems"].
Proof.
  split; [reflexivity|]. split; [reflexivity|].
  destruct (metadata_fields alice (VStr "alice") (VStr "contributors")
              eq_refl eq_refl) as (doc & Hdoc & Hu & Hr & He & _).
  exists doc. repeat split; assumption.
Defined.

(** * Further properties of the code *)

Example fetch_sample :
  fetch_github_users credentials sample_host "contributors"
  = ([HttpGet "https://api.github.com/repos/acme/widgets/contributors"
        (request_headers (VStr "t0k3n"))],
     Returns [ {[ "login" := VStr "alice"; "bio" := VStr "";
                  "role" := VStr "contributors" ]};
               {[ "login" := VStr "bob"; "bio" := VNone;
                  "role" := VStr "contributors" ]} ]).
Proof. vm_compute. reflexivity. Qed.

(** ** Tags: normal form and composition *)

(** X1.  Every tag returned by [extract_expertise_tags], and every tag
    returned by [get_pr_insights], is in lower case and contains no
    whitespace character. *)
Theorem tags_lowercase_without_whitespace
    (set_order : gset string -> list string) (bio pr_title pr_body : pyval) :
  set_order_spec set_order ->
  Forall (fun t => is_lower t /\ no_space t = true)
    (extract_expertise_tags bio)
  /\ (forall tags,
        get_pr_insights set_order pr_title pr_body = Returns tags ->
        Forall (fun t => is_lower t /\ no_space t = true) tags).
Proof.
  intros Hso.
  assert (Hwords : forall s,
             Forall (fun t => is_lower t /\ no_space t = true)
               (tags_of_words (Py.split (Py.lower s)))).
  { intros s. destruct (split_lower_words s) as [Hns Hlow].
    apply Forall_and. split; [by apply tags_of_words_lower|].
    eapply Forall_impl; [by apply tags_of_words_no_space|].
    by intros t [_ Ht]. }
  split.
  - rewrite extract_expertise_tags_text. apply Hwords.
  - destruct pr_title as [|a], pr_body as [|b]; try discriminate.
    intros tags [= <-]. apply Forall_forall. intros t Ht.
    apply (elem_of_set_order set_order Hso), elem_of_list_to_set in Ht.
    revert t Ht. apply Forall_forall, Hwords.
Qed.

Lemma tags_lowercase_without_whitespace_witness :
  set_order_spec elements
  /\ Forall (fun t => is_lower t /\ no_space t = true)
       (extract_expertise_tags (VStr "Backend RUST Systems")).
Proof.
  assert (Hso : set_order_spec elements) by (intros s; reflexivity).
  split; [exact Hso|].
  destruct (tags_lowercase_without_whitespace elements
              (VStr "Backend RUST Systems") (VStr "Fix") (VStr "bug") Hso)
    as [Hbio _].
  exact Hbio.
Defined.

(** X2.  Letter case of the bio is irrelevant: a bio and its lowercased
    form give the same tag list. *)
Theorem extract_expertise_tags_ignores_case (s : string) :
  extract_expertise_tags (VStr (Py.lower s)) = extract_expertise_tags (VStr s).
Proof. by rewrite !extract_expertise_tags_text; cbn; rewrite lower_idemp. Qed.

Lemma tags_of_words_append_space (a b : string) :
  tags_of_words (Py.split (Py.lower (a +:+ " " +:+ b)))
  = tags_of_words (Py.split (Py.lower a))
    ++ tags_of_words (Py.split (Py.lower b)).
Proof.
  rewrite !lower_append. change (Py.lower " ") with " ".
  by rewrite split_append_space, tags_of_words_app.
Qed.

Lemma get_pr_insights_tag_set
    (set_order : gset string -> list string) (pr_title pr_body : string) :
  set_order_spec set_order ->
  exists tags,
    get_pr_insights set_order (VStr pr_title) (VStr pr_body) = Returns tags
    /\ NoDup tags
    /\ (list_to_set tags : gset string)
       = list_to_set (extract_expertise_tags (VStr pr_title))
         ∪ list_to_set (extract_expertise_tags (VStr pr_body)).
Proof.
  intros Hso. eexists. split; [by apply get_pr_insights_strings|].
  split; [by apply NoDup_set_order|].
  rewrite (list_to_set_set_order set_order Hso), <- tags_of_words_spec.
  rewrite <- list_to_set_app_L, !extract_expertise_tags_text.
  by rewrite tags_of_words_append_space.
Qed.

(** X3.  Tags of two texts joined by a space are the tags of the first
    followed by the tags of the second: the separating space keeps the last
    word of one and the first word of the other apart. *)
Theorem extract_expertise_tags_append (a b : string) :
  extract_expertise_tags (VStr (a +:+ " " +:+ b))
  = extract_expertise_tags (VStr a) ++ extract_expertise_tags (VStr b).
Proof.
  rewrite !extract_expertise_tags_text. cbn [bio_text].
  apply tags_of_words_append_space.
Qed.

(** X4.  The tags [get_pr_insights] returns for a title and a body are,
    as a set, the tags [extract_expertise_tags] gives for the title together
    with those it gives for the body. *)
Theorem get_pr_insights_union
    (set_order : gset string -> list string) (pr_title pr_body : string) :
  set_order_spec set_order ->
  exists tags,
    get_pr_insights set_order (VStr pr_title) (VStr pr_body) = Returns tags
    /\ (list_to_set tags : gset string)
       = list_to_set (extract_expertise_tags (VStr pr_title))
         ∪ list_to_set (extract_expertise_tags (VStr pr_body)).
Proof.
  intros Hso.
  destruct (get_pr_insights_tag_set set_order pr_title pr_body Hso)
    as (tags & Htags & _ & Hset).
  by exists tags.
Qed.

Lemma get_pr_insights_union_witness :
  set_order_spec elements
  /\ exists tags,
       get_pr_insights elements (VStr "Fix Rust bug") (VStr "rust panics")
       = Returns tags
       /\ (list_to_set tags : gset string)
          = list_to_set (extract_expertise_tags (VStr "Fix Rust bug"))
            ∪ list_to_set (extract_expertise_tags (VStr "rust panics")).
Proof.
  assert (Hso : set_order_spec elements) by (intros s; reflexivity).
  split; [exact Hso|].
  apply (get_pr_insights_union elements "Fix Rust bug" "rust panics" Hso).
Defined.

(** X5.  Swapping title and body changes at most the order of the tags
    that [get_pr_insights] returns. *)
Theorem get_pr_insights_swap
    (set_order : gset string -> list string) (pr_title pr_body : string) :
  set_order_spec set_order ->
  exists tags tags',
    get_pr_insights set_order (VStr pr_title) (VStr pr_body) = Returns tags
    /\ get_pr_insights set_order (VStr pr_body) (VStr pr_title) = Returns tags'
    /\ tags ≡ₚ tags'.
Proof.
  intros Hso.
  destruct (get_pr_insights_tag_set set_order pr_title pr_body Hso)
    as (tags & Htags & Hnd & Hset).
  destruct (get_pr_insights_tag_set set_order pr_body pr_title Hso)
    as (tags' & Htags' & Hnd' & Hset').
  exists tags, tags'. split; [done|]. split; [done|].
  apply NoDup_Permutation; [done|done|].
  intros t.
  rewrite <- (elem_of_list_to_set (C := gset string) t tags).
  rewrite <- (elem_of_list_to_set (C := gset string) t tags').
  by rewrite Hset, Hset', (comm_L (∪)).
Qed.

Lemma get_pr_insights_swap_witness :
  set_order_spec elements
  /\ exists tags tags',
       get_pr_insights elements (VStr "Fix Rust bug") (VStr "rust panics")
       = Returns tags
       /\ get_pr_insights elements (VStr "rust panics") (VStr "Fix Rust bug")
          = Returns tags'
       /\ tags ≡ₚ tags'.
Proof.
  assert (Hso : set_order_spec elements) by (intros s; reflexivity).
  split; [exact Hso|].
  apply (get_pr_insights_swap elements "Fix Rust bug" "rust panics" Hso).
Defined.



Lemma extract_expertise_tags_shape (bio : pyval) :
  Forall (fun t => t <> "" /\ no_space t = true) (extract_expertise_tags bio)
  /\ Forall is_lower (extract_expertise_tags bio)
  /\ Forall (fun t => 2 < String.length t) (extract_expertise_tags bio).
Proof.
  rewrite extract_expertise_tags_text.
  destruct (split_lower_words (bio_text bio)) as [Hns Hlow].
  split; [by apply tags_of_words_no_space|].
  split; [by apply tags_of_words_lower|].
  eapply Forall_impl; [apply tags_of_words_well_formed|].
  intros t [_ Hlen]. lia.
Qed.


(** X7.  For a user whose login and role contain no whitespace, splitting
    the [page_content] of the document gives back the tag list it was joined
    from: the name tag, the role tag and the expertise tags, in that
    order. *)
Theorem page_content_splits_into_tags
    (user : gmap string pyval) (name role_ : pyval) :
  user !! "login" = Some name ->
  user !! "role" = Some role_ ->
  no_space (Py.format name) = true ->
  no_space (Py.format role_) = true ->
  exists doc,
    prepare_documents [user] = Returns [doc]
    /\ Py.split (page_content doc)
       = hash_tag (Py.format name) :: hash_tag (Py.format role_)
         :: expertise (metadata doc).
Proof.
  intros Hn Hr Hname Hrole. eexists. split.
  - unfold prepare_documents. cbn.
    by rewrite (build_document_lookup user name role_ Hn Hr).
  - cbn [page_content metadata expertise make_document].
    rewrite profile_tags_cons. apply split_join.
    destruct (extract_expertise_tags_shape (Py.get user "bio" (VStr "")))
      as (Hns & _).
    repeat (apply Forall_cons; split); done.
Qed.

Lemma page_content_splits_into_tags_witness :
  alice !! "login" = Some (VStr "alice")
  /\ alice !! "role" = Some (VStr "contributors")
  /\ no_space "alice" = true
  /\ no_space "contributors" = true
  /\ exists doc,
       prepare_documents [alice] = Returns [doc]
       /\ Py.split (page_content doc)
          = "#alice" :: "#contributors" :: expertise (metadata doc).
Proof.
  do 4 (split; [reflexivity|]).
  apply (page_content_splits_into_tags alice
           (VStr "alice") (VStr "contributors")); reflexivity.
Defined.

(** ** The document loop over several batches *)

Lemma prepare_documents_loop_app (us vs : list (gmap string pyval)) :
  forall documents,
    prepare_documents_loop documents (us ++ vs)
    = (docs <-! prepare_documents_loop documents us;
       prepare_documents_loop docs vs).
Proof.
  induction us as [|u us IH]; intros documents; [done|].
  cbn. destruct (build_document u) as [doc|e]; [|done]. cbn. apply IH.
Qed.

Lemma prepare_documents_loop_acc (users : list (gmap string pyval)) :
  forall documents,
    prepare_documents_loop documents users
    = (docs <-! prepare_documents_loop [] users;
       Returns (documents ++ docs)).
Proof.
  induction users as [|u users IH]; intros documents.
  - cbn. by rewrite app_nil_r.
  - cbn. destruct (build_document u) as [doc|e]; [|done]. cbn.
    rewrite (IH (documents ++ [doc])), (IH [doc]).
    destruct (prepare_documents_loop [] users) as [docs|e]; [|done].
    cbn. by rewrite <- app_assoc.
Qed.

(** X8.  Documents of a concatenation of two user lists are the documents
    of the first followed by the documents of the second; a failure in
    either list is the failure of the whole, the first list's taking
    precedence. *)
Theorem prepare_documents_app (us vs : list (gmap string pyval)) :
  prepare_documents (us ++ vs)
  = (docs <-! prepare_documents us;
     docs' <-! prepare_documents vs;
     Returns (docs ++ docs')).
Proof.
  unfold prepare_documents. rewrite prepare_documents_loop_app.
  destruct (prepare_documents_loop [] us) as [docs|e]; [|done].
  cbn. apply prepare_documents_loop_acc.
Qed.

(** X9.  One user without login or role aborts the whole batch: whatever
    precedes and follows it, [prepare_documents] returns no document and
    raises the [KeyError] of the first malformed user, for [login] if that
    is missing and for [role] otherwise. *)
Theorem prepare_documents_first_malformed
    (good rest : list (gmap string pyval)) (bad : gmap string pyval) :
  Forall has_login_and_role good ->
  ~ has_login_and_role bad ->
  prepare_documents (good ++ bad :: rest)
  = Raises (KeyError (match bad !! "login" with
                      | None => "login"
                      | Some _ => "role"
                      end)).
Proof.
  intros Hgood Hbad. unfold prepare_documents.
  rewrite prepare_documents_loop_app.
  destruct (prepare_documents_Returns good Hgood) as (docs & Hdocs & _).
  unfold prepare_documents in Hdocs. rewrite Hdocs. cbn.
  unfold build_document, Py.getitem.
  destruct (bad !! "login") as [name|] eqn:Hn; [|done].
  destruct (bad !! "role") as [role_|] eqn:Hr; [|done].
  destruct Hbad. unfold has_login_and_role. rewrite Hn, Hr. by split.
Qed.

Lemma prepare_documents_first_malformed_witness :
  Forall has_login_and_role [alice; bob]
  /\ ~ has_login_and_role roleless
  /\ prepare_documents ([alice; bob] ++ roleless :: [carol])
     = Raises (KeyError "role").
Proof.
  assert (Hgood : Forall has_login_and_role [alice; bob]).
  { repeat constructor; by eexists. }
  assert (Hbad : ~ has_login_and_role roleless).
  { intros [_ [v Hv]]. vm_compute in Hv. discriminate. }
  split; [exact Hgood|]. split; [exact Hbad|].
  apply (prepare_documents_first_malformed [alice; bob] [carol] roleless
           Hgood Hbad).
Defined.

(** ** Outcomes of the index build *)

(** X10.  [create_vector_store] hands back the store exactly when the
    underlying build returns it, and then prints nothing; its result is
    [None] exactly when the build raised an [Exception]; and it raises
    exactly the errors of the build that are not [Exception]s. *)
Theorem create_vector_store_outcome
    (Store : Type) (from_documents : list Document -> result Store)
    (documents : list Document) :
  let run := create_vector_store Store from_documents documents in
  (forall store,
     run.2 = Returns (Some store) <-> from_documents documents = Returns store)
  /\ (run.2 = Returns None
      <-> exists e, from_documents documents = Raises e
                    /\ is_Exception e = true)
  /\ (forall e,
        run.2 = Raises e
        <-> from_documents documents = Raises e /\ is_Exception e = false)
  /\ (forall store, run.2 = Returns (Some store) -> run.1 = []).
Proof.
  unfold create_vector_store.
  destruct (from_documents documents) as [s|e]; cbn.
  - split; [intros store; split; congruence|].
    split; [split; [done|by intros (e & He & _)]|].
    split; [intros e; split; [done|by intros [He _]]|done].
  - destruct (is_Exception e) eqn:He; cbn.
    + split; [intros store; split; done|].
      split; [split; [by exists e|done]|].
      split; [|done].
      intros e'; split; [done|]. intros [[= <-] Hf]. congruence.
    + split; [intros store; split; done|].
      split; [split; [done|]|].
      * intros (e' & [= <-] & He'). congruence.
      * split; [|done].
        intros e'; split; [by intros [= <-]|by intros [[= <-] _]].
Qed.

(** ** Fetching users *)

Lemma not_getenv (environ : gmap string string) (key : string) :
  Py.not_ (getenv environ key) = true <-> unset environ key.
Proof.
  unfold getenv, unset.
  destruct (environ !! key) as [[|c v]|]; cbn; split; try done.
  - by right.
  - intros [?|?]; done.
  - by left.
Qed.

Lemma not_getenv_false (environ : gmap string string) (key : string) :
  ~ unset environ key -> Py.not_ (getenv environ key) = false.
Proof.
  intros Hset. destruct (Py.not_ (getenv environ key)) eqn:Hnot; [|done].
  by apply not_getenv in Hnot.
Qed.

Lemma endpoint_Some (repo_owner repo_name : pyval) (user_type url : string) :
  endpoint repo_owner repo_name user_type = Some url ->
  user_type = "contributors" \/ user_type = "reviewers".
Proof.
  unfold endpoint.
  destruct (String.eqb_spec user_type "contributors"); [by left|].
  destruct (String.eqb_spec user_type "reviewers"); [by right|done].
Qed.

Lemma endpoint_None (repo_owner repo_name : pyval) (user_type : string) :
  user_type <> "contributors" -> user_type <> "reviewers" ->
  endpoint repo_owner repo_name user_type = None.
Proof.
  intros Hc Hr. unfold endpoint.
  destruct (String.eqb_spec user_type "contributors"); [done|].
  by destruct (String.eqb_spec user_type "reviewers").
Qed.

Lemma user_record_Returns (user_type : string)
    (user record : gmap string pyval) :
  user_record user_type user = Returns record ->
  exists login,
    user !! "login" = Some login
    /\ record = {[ "login" := login;
                   "bio" := Py.get user "bio" (VStr "");
                   "role" := VStr user_type ]}.
Proof.
  unfold user_record, Py.getitem.
  destruct (user !! "login") as [login|]; [|discriminate].
  intros [= <-]. by exists login.
Qed.

Lemma user_records_Returns (user_type : string)
    (users : list (gmap string pyval)) :
  forall records,
    user_records user_type users = Returns records ->
    Forall2 (fun user record => user_record user_type user = Returns record)
      users records.
Proof.
  induction users as [|user users IH]; intros records; cbn.
  - intros [= <-]. constructor.
  - destruct (user_record user_type user) as [record|] eqn:Hrec;
      [|discriminate]. cbn.
    destruct (user_records user_type users) as [rest|]; [|discriminate].
    intros [= <-]. constructor; [done|by apply IH].
Qed.

Lemma user_records_Raises (user_type : string)
    (users : list (gmap string pyval)) (user : gmap string pyval) :
  user ∈ users -> user !! "login" = None ->
  user_records user_type users = Raises (KeyError "login").
Proof.
  intros Hin Hlogin.
  induction users as [|u users IH]; [by inversion Hin|]. cbn.
  destruct (user_record user_type u) as [record|e] eqn:Hrec; cbn.
  - apply elem_of_cons in Hin as [->|Hin].
    + apply user_record_Returns in Hrec as (login & Hl & _). congruence.
    + by rewrite (IH Hin).
  - revert Hrec. unfold user_record, Py.getitem.
    destruct (u !! "login"); [discriminate|]. by intros [= <-].
Qed.

Section Fetch.
Variable environ : gmap string string.
Variable requests_get : string -> gmap string string -> result Response.

Let github_token := getenv environ "GITHUB_TOKEN".
Let repo_owner := getenv environ "GITHUB_REPO_OWNER".
Let repo_name := getenv environ "GITHUB_REPO_NAME".

Lemma fetch_unconfigured (user_type : string) :
  ~ configured environ ->
  fetch_github_users environ requests_get user_type
  = ([PrintMissingCredentials], Returns []).
Proof.
  intros Hno. unfold fetch_github_users.
  destruct (Py.not_ (getenv environ "GITHUB_TOKEN")) eqn:Ht; [done|].
  destruct (Py.not_ (getenv environ "GITHUB_REPO_OWNER")) eqn:Ho; [done|].
  destruct (Py.not_ (getenv environ "GITHUB_REPO_NAME")) eqn:Hn; [done|].
  destruct Hno. repeat split; intros Hu%not_getenv; congruence.
Qed.

Lemma fetch_configured (user_type : string) :
  configured environ ->
  fetch_github_users environ requests_get user_type
  = match endpoint repo_owner repo_name user_type with
    | None => ([PrintInvalidUserType], Returns [])
    | Some url =>
        let headers := request_headers github_token in
        match requests_get url headers with
        | Raises e => ([HttpGet url headers], Raises e)
        | Returns response =>
            if (status_code response =? 200)%Z
            then ([HttpGet url headers],
                  users <-! json response; user_records user_type users)
            else ([HttpGet url headers;
                   PrintFetchFailed user_type (status_code response)
                     (text response)], Returns [])
        end
    end.
Proof.
  intros (Ht & Ho & Hn). unfold fetch_github_users.
  rewrite (not_getenv_false _ _ Ht), (not_getenv_false _ _ Ho),
    (not_getenv_false _ _ Hn). cbn [orb].
  fold repo_owner repo_name github_token.
  destruct (endpoint repo_owner repo_name user_type) as [url|]; [|done].
  cbn. destruct (requests_get url (request_headers github_token))
    as [response|e]; [|done].
  cbn. destruct (status_code response =? 200)%Z; [|done].
  cbn. destruct (json response) as [users|e]; [|done].
  cbn. by destruct (user_records user_type users).
Qed.

(** A non-empty answer comes from a 200 response of the endpoint. *)
Lemma fetch_Returns (user_type : string) (trace : list event)
    (users : list (gmap string pyval)) :
  fetch_github_users environ requests_get user_type = (trace, Returns users) ->
  users = []
  \/ exists url response entries,
       configured environ
       /\ endpoint repo_owner repo_name user_type = Some url
       /\ requests_get url (request_headers github_token) = Returns response
       /\ status_code response = 200%Z
       /\ json response = Returns entries
       /\ user_records user_type entries = Returns users
       /\ trace = [HttpGet url (request_headers github_token)].
Proof.
  destruct (decide (configured environ)) as [Hc|Hc].
  2:{ rewrite (fetch_unconfigured _ Hc). intros [= <- <-]. by left. }
  rewrite (fetch_configured _ Hc).
  destruct (endpoint repo_owner repo_name user_type) as [url|] eqn:Hurl.
  2:{ intros [= <- <-]. by left. }
  cbn. destruct (requests_get url (request_headers github_token))
    as [response|e] eqn:Hget; [|discriminate].
  destruct (status_code response =? 200)%Z eqn:Hst.
  2:{ intros [= <- <-]. by left. }
  destruct (json response) as [entries|e] eqn:Hjson; [|discriminate].
  cbn. intros [= <- Hrec]. right. exists url, response, entries.
  apply Z.eqb_eq in Hst. done.
Qed.
End Fetch.

(** X11.  Every user that [fetch_github_users] returns is a record with
    exactly the keys [login], [bio] and [role], its role is the requested
    user type, and that type is [contributors] or [reviewers]. *)
Theorem fetched_users_well_formed
    (environ : gmap string string)
    (requests_get : string -> gmap string string -> result Response)
    (user_type : string) (trace : list event)
    (users : list (gmap string pyval)) :
  fetch_github_users environ requests_get user_type = (trace, Returns users) ->
  Forall (fun user =>
            dom user = ({[ "login"; "bio"; "role" ]} : gset string)
            /\ user !! "role" = Some (VStr user_type)
            /\ (user_type = "contributors" \/ user_type = "reviewers"))
    users.
Proof.
  intros [->|(url & response & entries & _ & Hurl & _ & _ & _ & Hrec & _)]
    %fetch_Returns; [constructor|].
  apply endpoint_Some in Hurl. apply user_records_Returns in Hrec.
  apply Forall_forall. intros user Huser.
  apply list_elem_of_lookup in Huser as [i Hi].
  destruct (Forall2_lookup_r _ _ _ _ _ Hrec Hi) as (entry & _ & Hentry).
  apply user_record_Returns in Hentry as (login & _ & ->).
  split; [|done].
  rewrite !dom_insert_L, dom_singleton_L.
  by rewrite (assoc_L (∪)).
Qed.

Lemma fetched_users_well_formed_witness :
  Forall (fun user =>
            dom user = ({[ "login"; "bio"; "role" ]} : gset string)
            /\ user !! "role" = Some (VStr "contributors")
            /\ ("contributors" = "contributors"
                \/ "contributors" = "reviewers"))
    [ ({[ "login" := VStr "alice"; "bio" := VStr "";
          "role" := VStr "contributors" ]} : gmap string pyval);
      {[ "login" := VStr "bob"; "bio" := VNone;
         "role" := VStr "contributors" ]} ].
Proof.
  apply (fetched_users_well_formed credentials sample_host "contributors"
           [HttpGet "https://api.github.com/repos/acme/widgets/contributors"
              (request_headers (VStr "t0k3n"))]).
  vm_compute. reflexivity.
Defined.

(** X12.  For a host whose entries carry strings or null as [login] and
    [bio], the users that [fetch_github_users] returns are accepted by
    [prepare_documents]: it raises no [KeyError] and returns one document
    per fetched user, each with the requested user type as its role. *)
Theorem prepare_documents_accepts_fetched_users
    (environ : gmap string string)
    (requests_get : string -> gmap string string -> result Response)
    (user_type : string) (trace : list event)
    (users : list (gmap string pyval)) :
  fetch_github_users environ requests_get user_type = (trace, Returns users) ->
  exists docs,
    prepare_documents users = Returns docs
    /\ length docs = length users
    /\ Forall (fun doc => role (metadata doc) = VStr user_type) docs.
Proof.
  intros Hfetch.
  assert (Hrec : Forall (fun user =>
                           is_Some (user !! "login")
                           /\ user !! "role" = Some (VStr user_type)) users).
  { apply fetch_Returns in Hfetch
      as [->|(url & response & entries & _ & _ & _ & _ & _ & Hrec & _)];
      [constructor|].
    apply user_records_Returns in Hrec.
    apply Forall_forall. intros user Huser.
    apply list_elem_of_lookup in Huser as [i Hi].
    destruct (Forall2_lookup_r _ _ _ _ _ Hrec Hi) as (entry & _ & Hentry).
    apply user_record_Returns in Hentry as (login & _ & ->).
    split; [by eexists|done]. }
  destruct (prepare_documents_Returns users) as (docs & Hdocs & Hall).
  { eapply Forall_impl; [exact Hrec|].
    intros user [Hl Hr]. split; [done|by eexists]. }
  exists docs. split; [done|].
  split; [symmetry; by eapply Forall2_length|].
  apply Forall_forall. intros doc Hdoc.
  apply list_elem_of_lookup in Hdoc as [i Hi].
  destruct (Forall2_lookup_r _ _ _ _ _ Hall Hi) as (user & Hu & Hbuild).
  apply build_document_Returns in Hbuild as (name & role_ & _ & Hr & ->).
  apply list_elem_of_lookup_2 in Hu.
  destruct (proj1 (Forall_forall _ _) Hrec user Hu) as [_ Hrole].
  cbn. congruence.
Qed.

Lemma prepare_documents_accepts_fetched_users_witness :
  exists docs,
    prepare_documents
      [ {[ "login" := VStr "alice"; "bio" := VStr "";
           "role" := VStr "contributors" ]};
        {[ "login" := VStr "bob"; "bio" := VNone;
           "role" := VStr "contributors" ]} ]
    = Returns docs
    /\ length docs = 2
    /\ Forall (fun doc => role (metadata doc) = VStr "contributors") docs.
Proof.
  apply (prepare_documents_accepts_fetched_users credentials sample_host
           "contributors"
           [HttpGet "https://api.github.com/repos/acme/widgets/contributors"
              (request_headers (VStr "t0k3n"))]).
  vm_compute. reflexivity.
Defined.

(** X13.  When one of the three credentials is unset or empty, or the user
    type is neither [contributors] nor [reviewers], [fetch_github_users]
    returns the empty list without sending any request. *)
Theorem fetch_without_request
    (environ : gmap string string)
    (requests_get : string -> gmap string string -> result Response)
    (user_type : string) :
  ~ configured environ
  \/ (user_type <> "contributors" /\ user_type <> "reviewers") ->
  (fetch_github_users environ requests_get user_type).2 = Returns []
  /\ Forall (fun e => is_request e = false)
       (fetch_github_users environ requests_get user_type).1.
Proof.
  intros Hcase.
  destruct (decide (configured environ)) as [Hc|Hc].
  - destruct Hcase as [?|[Hnc Hnr]]; [done|].
    rewrite (fetch_configured _ _ _ Hc), (endpoint_None _ _ _ Hnc Hnr).
    split; [done|]. by repeat constructor.
  - rewrite (fetch_unconfigured _ _ _ Hc).
    split; [done|]. by repeat constructor.
Qed.

Lemma fetch_without_request_witness :
  ~ configured (delete "GITHUB_TOKEN" credentials)
  /\ (fetch_github_users (delete "GITHUB_TOKEN" credentials) sample_host
        "contributors").2 = Returns [].
Proof.
  assert (Hno : ~ configured (delete "GITHUB_TOKEN" credentials)).
  { intros [Ht _]. apply Ht. by left. }
  split; [exact Hno|].
  apply (fetch_without_request (delete "GITHUB_TOKEN" credentials)
           sample_host "contributors" (or_introl Hno)).
Defined.

(** X14.  A non-empty result of [fetch_github_users] comes from one request
    answered with status 200; the users returned are the entries of the
    answer, in order, with the login kept, the bio kept or replaced by the
    empty string when the entry has none, and the user type as role. *)
Theorem fetched_users_mirror_answer
    (environ : gmap string string)
    (requests_get : string -> gmap string string -> result Response)
    (user_type : string) (trace : list event)
    (users : list (gmap string pyval)) :
  fetch_github_users environ requests_get user_type = (trace, Returns users) ->
  users <> [] ->
  exists url response entries,
    trace = [HttpGet url (request_headers (getenv environ "GITHUB_TOKEN"))]
    /\ requests_get url (request_headers (getenv environ "GITHUB_TOKEN"))
       = Returns response
    /\ status_code response = 200%Z
    /\ json response = Returns entries
    /\ Forall2 (fun entry user =>
                  user !! "login" = entry !! "login"
                  /\ user !! "bio" = Some (Py.get entry "bio" (VStr ""))
                  /\ user !! "role" = Some (VStr user_type))
         entries users.
Proof.
  intros [->|(url & response & entries & _ & _ & Hget & Hst & Hjson & Hrec
              & ->)]%fetch_Returns Hne; [done|].
  exists url, response, entries. do 4 (split; [done|]).
  apply user_records_Returns in Hrec.
  eapply Forall2_impl; [exact Hrec|]. cbn.
  by intros entry user (login & -> & ->)%user_record_Returns.
Qed.

Lemma fetched_users_mirror_answer_witness :
  exists url response entries,
    [HttpGet "https://api.github.com/repos/acme/widgets/contributors"
       (request_headers (VStr "t0k3n"))]
    = [HttpGet url (request_headers (getenv credentials "GITHUB_TOKEN"))]
    /\ sample_host url (request_headers (getenv credentials "GITHUB_TOKEN"))
       = Returns response
    /\ status_code response = 200%Z
    /\ json response = Returns entries
    /\ Forall2 (fun entry user =>
                  user !! "login" = entry !! "login"
                  /\ user !! "bio" = Some (Py.get entry "bio" (VStr ""))
                  /\ user !! "role" = Some (VStr "contributors"))
         entries
         [ ({[ "login" := VStr "alice"; "bio" := VStr "";
               "role" := VStr "contributors" ]} : gmap string pyval);
           {[ "login" := VStr "bob"; "bio" := VNone;
              "role" := VStr "contributors" ]} ].
Proof.
  apply (fetched_users_mirror_answer credentials sample_host "contributors").
  - vm_compute. reflexivity.
  - discriminate.
Defined.

(** X15.  When the host answers 200 with an entry that has no login,
    [fetch_github_users] returns no user at all: the [KeyError] for [login]
    reaches the caller. *)
Theorem fetch_entry_without_login
    (environ : gmap string string)
    (requests_get : string -> gmap string string -> result Response)
    (user_type url : string) (response : Response)
    (entries : list (gmap string pyval)) (entry : gmap string pyval) :
  configured environ ->
  endpoint (getenv environ "GITHUB_REPO_OWNER")
    (getenv environ "GITHUB_REPO_NAME") user_type = Some url ->
  requests_get url (request_headers (getenv environ "GITHUB_TOKEN"))
  = Returns response ->
  status_code response = 200%Z ->
  json response = Returns entries ->
  entry ∈ entries ->
  entry !! "login" = None ->
  fetch_github_users environ requests_get user_type
  = ([HttpGet url (request_headers (getenv environ "GITHUB_TOKEN"))],
     Raises (KeyError "login")).
Proof.
  intros Hc Hurl Hget Hst Hjson Hin Hlogin.
  rewrite (fetch_configured _ _ _ Hc), Hurl. cbn.
  rewrite Hget, Hst, Hjson. cbn.
  by rewrite (user_records_Raises user_type entries entry Hin Hlogin).
Qed.

Lemma credentials_configured : configured credentials.
Proof.
  repeat split; intros [H|H]; vm_compute in H; discriminate.
Qed.

Lemma fetch_entry_without_login_witness :
  fetch_github_users credentials broken_host "reviewers"
  = ([HttpGet "https://api.github.com/repos/acme/widgets/collaborators"
        (request_headers (getenv credentials "GITHUB_TOKEN"))],
     Raises (KeyError "login")).
Proof.
  apply (fetch_entry_without_login credentials broken_host "reviewers"
           "https://api.github.com/repos/acme/widgets/collaborators"
           {| status_code := 200; text := "";
              json := Returns [ {[ "login" := VStr "alice" ]};
                                {[ "bio" := VStr "rust" ]} ] |}
           [ {[ "login" := VStr "alice" ]}; {[ "bio" := VStr "rust" ]} ]
           {[ "bio" := VStr "rust" ]}).
  - exact credentials_configured.
  - reflexivity.
  - reflexivity.
  - reflexivity.
  - reflexivity.
  - right. by left.
  - reflexivity.
Defined.

(** ** Main execution *)

Section Main.
Variable environ : gmap string string.
Variable requests_get : string -> gmap string string -> result Response.
Variable Store : Type.
Variable from_documents : list Document -> result Store.

Lemma main_execution_fetched (t1 t2 : list event)
    (us1 us2 : list (gmap string pyval)) :
  fetch_github_users environ requests_get "contributors"
  = (t1, Returns us1) ->
  fetch_github_users environ requests_get "reviewers" = (t2, Returns us2) ->
  main_execution environ requests_get Store from_documents
  = match us1 ++ us2 with
    | [] => (t1 ++ t2 ++ [PrintSkipping], Returns None)
    | _ :: _ =>
        match prepare_documents (us1 ++ us2) with
        | Raises e => (t1 ++ t2, Raises e)
        | Returns docs =>
            match create_vector_store Store from_documents docs with
            | (printed, Returns store) =>
                (t1 ++ t2 ++ (Stdout <$> printed) ++ [PrintStoreCreated],
                 Returns store)
            | (printed, Raises e) =>
                (t1 ++ t2 ++ (Stdout <$> printed), Raises e)
            end
        end
    end.
Proof.
  intros H1 H2. unfold main_execution. rewrite H1. cbn [io_bind].
  rewrite H2. cbn [io_bind].
  destruct (us1 ++ us2) as [|u us] eqn:Hus.
  - by cbn.
  - unfold io_lift.
    destruct (prepare_documents (u :: us)) as [docs|e]; cbn [io_bind].
    + destruct (create_vector_store Store from_documents docs)
        as [printed [store|e]]; cbn.
      * done.
      * by rewrite ?app_nil_r.
    + cbn. by rewrite ?app_nil_r.
Qed.

Lemma main_execution_fetch_Raises (e : exn) :
  (main_execution environ requests_get Store from_documents).2 = Raises e ->
  (fetch_github_users environ requests_get "contributors").2 = Raises e
  \/ (fetch_github_users environ requests_get "reviewers").2 = Raises e
  \/ exists t1 t2 us1 us2,
       fetch_github_users environ requests_get "contributors"
       = (t1, Returns us1)
       /\ fetch_github_users environ requests_get "reviewers"
          = (t2, Returns us2).
Proof.
  destruct (fetch_github_users environ requests_get "contributors")
    as [t1 [us1|e1]] eqn:H1.
  2:{ unfold main_execution. rewrite H1. cbn. intros [= <-]. by left. }
  destruct (fetch_github_users environ requests_get "reviewers")
    as [t2 [us2|e2]] eqn:H2.
  2:{ unfold main_execution. rewrite H1. cbn [io_bind]. rewrite H2. cbn.
      intros [= <-]. right. by left. }
  intros _. right. right. by exists t1, t2, us1, us2.
Qed.
End Main.

Lemma fetched_users_have_keys
    (environ : gmap string string)
    (requests_get : string -> gmap string string -> result Response)
    (user_type : string) (trace : list event)
    (users : list (gmap string pyval)) :
  fetch_github_users environ requests_get user_type = (trace, Returns users) ->
  Forall has_login_and_role users.
Proof.
  intros [->|(url & response & entries & _ & _ & _ & _ & _ & Hrec & _)]
    %fetch_Returns; [constructor|].
  apply user_records_Returns in Hrec.
  apply Forall_forall. intros user Huser.
  apply list_elem_of_lookup in Huser as [i Hi].
  destruct (Forall2_lookup_r _ _ _ _ _ Hrec Hi) as (entry & _ & Hentry).
  apply user_record_Returns in Hentry as (login & _ & ->).
  split; by eexists.
Qed.

(** X16.  When a credential is unset or empty, the main execution sends no
    request, builds no index and leaves [vector_store] at [None]: it prints
    the missing-credentials line once per fetch and then the skipping
    line. *)
Theorem main_execution_skips_without_credentials
    (environ : gmap string string)
    (requests_get : string -> gmap string string -> result Response)
    (Store : Type) (from_documents : list Document -> result Store) :
  ~ configured environ ->
  main_execution environ requests_get Store from_documents
  = ([PrintMissingCredentials; PrintMissingCredentials; PrintSkipping],
     Returns None).
Proof.
  intros Hno.
  by rewrite (main_execution_fetched environ requests_get Store
                from_documents _ _ [] []
                (fetch_unconfigured environ requests_get _ Hno)
                (fetch_unconfigured environ requests_get _ Hno)).
Qed.

Lemma main_execution_skips_without_credentials_witness :
  ~ configured (∅ : gmap string string)
  /\ main_execution ∅ sample_host unit failing_build
     = ([PrintMissingCredentials; PrintMissingCredentials; PrintSkipping],
        Returns None).
Proof.
  assert (Hno : ~ configured (∅ : gmap string string)).
  { intros [Ht _]. apply Ht. by left. }
  split; [exact Hno|].
  apply (main_execution_skips_without_credentials ∅ sample_host unit
           failing_build Hno).
Defined.

(** X17.  When users were fetched and the index build fails with an
    [Exception], the main execution still prints the line that reports the
    vector store as created, right after the error line, and leaves
    [vector_store] at [None]. *)
Theorem main_execution_reports_created_without_store
    (environ : gmap string string)
    (requests_get : string -> gmap string string -> result Response)
    (Store : Type) (from_documents : list Document -> result Store)
    (t1 t2 : list event) (us1 us2 : list (gmap string pyval)) (e : exn) :
  fetch_github_users environ requests_get "contributors"
  = (t1, Returns us1) ->
  fetch_github_users environ requests_get "reviewers" = (t2, Returns us2) ->
  us1 ++ us2 <> [] ->
  (forall docs, prepare_documents (us1 ++ us2) = Returns docs ->
                from_documents docs = Raises e) ->
  is_Exception e = true ->
  main_execution environ requests_get Store from_documents
  = (t1 ++ t2 ++ [Stdout (PrintVectorStoreError e); PrintStoreCreated],
     Returns None).
Proof.
  intros H1 H2 Hne Hbuild He.
  rewrite (main_execution_fetched _ _ _ _ _ _ _ _ H1 H2).
  destruct (us1 ++ us2) as [|u us] eqn:Hus; [done|].
  destruct (prepare_documents_Returns (u :: us)) as (docs & Hdocs & _).
  { rewrite <- Hus. apply Forall_app.
    split; by eapply fetched_users_have_keys. }
  rewrite Hdocs. unfold create_vector_store.
  by rewrite (Hbuild docs Hdocs), He.
Qed.

Lemma main_execution_reports_created_without_store_witness :
  main_execution credentials sample_host unit failing_build
  = ([HttpGet "https://api.github.com/repos/acme/widgets/contributors"
        (request_headers (VStr "t0k3n"))]
     ++ [HttpGet "https://api.github.com/repos/acme/widgets/collaborators"
           (request_headers (VStr "t0k3n"));
         PrintFetchFailed "reviewers" 403 "Forbidden"]
     ++ [Stdout (PrintVectorStoreError (OtherException "RuntimeError"));
         PrintStoreCreated],
     Returns None).
Proof.
  apply (main_execution_reports_created_without_store credentials
           sample_host unit failing_build _ _
           [ {[ "login" := VStr "alice"; "bio" := VStr "";
                "role" := VStr "contributors" ]};
             {[ "login" := VStr "bob"; "bio" := VNone;
                "role" := VStr "contributors" ]} ]
           []).
  - vm_compute. reflexivity.
  - vm_compute. reflexivity.
  - discriminate.
  - intros docs _. reflexivity.
  - reflexivity.
Defined.

(** X18.  For a host whose entries carry strings or null as [login] and
    [bio], [prepare_documents] does not fail inside the main execution: an
    exception that leaves the main execution was raised by one of the two
    fetches, or is an error of the index build that is not an
    [Exception]. *)
Theorem main_execution_failures
    (environ : gmap string string)
    (requests_get : string -> gmap string string -> result Response)
    (Store : Type) (from_documents : list Document -> result Store)
    (e : exn) :
  (main_execution environ requests_get Store from_documents).2 = Raises e ->
  (fetch_github_users environ requests_get "contributors").2 = Raises e
  \/ (fetch_github_users environ requests_get "reviewers").2 = Raises e
  \/ (is_Exception e = false
      /\ exists docs, from_documents docs = Raises e).
Proof.
  intros Hmain.
  destruct (main_execution_fetch_Raises _ _ _ _ _ Hmain)
    as [?|[?|(t1 & t2 & us1 & us2 & H1 & H2)]]; [by left|right; by left|].
  right. right. revert Hmain.
  rewrite (main_execution_fetched _ _ _ _ _ _ _ _ H1 H2).
  destruct (us1 ++ us2) as [|u us] eqn:Hus; [discriminate|].
  destruct (prepare_documents_Returns (u :: us)) as (docs & Hdocs & _).
  { rewrite <- Hus. apply Forall_app.
    split; by eapply fetched_users_have_keys. }
  rewrite Hdocs. unfold create_vector_store.
  destruct (from_documents docs) as [store|e'] eqn:Hbuild; [discriminate|].
  destruct (is_Exception e') eqn:He'; [discriminate|].
  cbn. intros [= <-]. split; [done|]. by exists docs.
Qed.

Lemma main_execution_failures_witness :
  (main_execution credentials broken_host unit failing_build).2
  = Raises (KeyError "login")
  /\ ((fetch_github_users credentials broken_host "contributors").2
      = Raises (KeyError "login")
      \/ (fetch_github_users credentials broken_host "reviewers").2
         = Raises (KeyError "login")
      \/ (is_Exception (KeyError "login") = false
          /\ exists docs, failing_build docs = Raises (KeyError "login"))).
Proof.
  assert (Hmain : (main_execution credentials broken_host unit
                     failing_build).2 = Raises (KeyError "login")).
  { vm_compute. reflexivity. }
  split; [exact Hmain|].
  apply (main_execution_failures credentials broken_host unit failing_build
           (KeyError "login") Hmain).
Defined.

(** X19.  For a host whose entries carry strings or null as [login] and
    [bio]: when users were fetched, the index is built from the documents of
    the contributors followed by the documents of the reviewers, one per
    fetched user; if that build returns a store, the main execution leaves it
    in [vector_store] and prints only the line that reports it created. *)
Theorem main_execution_builds_index
    (environ : gmap string string)
    (requests_get : string -> gmap string string -> result Response)
    (Store : Type) (from_documents : list Document -> result Store)
    (t1 t2 : list event) (us1 us2 : list (gmap string pyval)) :
  fetch_github_users environ requests_get "contributors"
  = (t1, Returns us1) ->
  fetch_github_users environ requests_get "reviewers" = (t2, Returns us2) ->
  us1 ++ us2 <> [] ->
  exists docs1 docs2,
    prepare_documents us1 = Returns docs1
    /\ prepare_documents us2 = Returns docs2
    /\ length docs1 = length us1
    /\ length docs2 = length us2
    /\ (forall store,
          from_documents (docs1 ++ docs2) = Returns store ->
          main_execution environ requests_get Store from_documents
          = (t1 ++ t2 ++ [PrintStoreCreated], Returns (Some store))).
Proof.
  intros H1 H2 Hne.
  destruct (prepare_documents_Returns us1) as (docs1 & Hd1 & Hall1);
    [by eapply fetched_users_have_keys|].
  destruct (prepare_documents_Returns us2) as (docs2 & Hd2 & Hall2);
    [by eapply fetched_users_have_keys|].
  exists docs1, docs2. do 2 (split; [done|]).
  split; [symmetry; by eapply Forall2_length|].
  split; [symmetry; by eapply Forall2_length|].
  intros store Hstore.
  rewrite (main_execution_fetched _ _ _ _ _ _ _ _ H1 H2).
  assert (Hdocs : prepare_documents (us1 ++ us2) = Returns (docs1 ++ docs2)).
  { unfold prepare_documents in *.
    rewrite prepare_documents_loop_app, Hd1. cbn.
    by rewrite prepare_documents_loop_acc, Hd2. }
  destruct (us1 ++ us2) as [|u us]; [done|].
  rewrite Hdocs. unfold create_vector_store. by rewrite Hstore.
Qed.

Lemma main_execution_builds_index_witness :
  main_execution credentials sample_host nat counting_build
  = ([HttpGet "https://api.github.com/repos/acme/widgets/contributors"
        (request_headers (VStr "t0k3n"))]
     ++ [HttpGet "https://api.github.com/repos/acme/widgets/collaborators"
           (request_headers (VStr "t0k3n"));
         PrintFetchFailed "reviewers" 403 "Forbidden"]
     ++ [PrintStoreCreated],
     Returns (Some 2)).
Proof.
  destruct (main_execution_builds_index credentials sample_host
              nat counting_build
              [HttpGet
                 "https://api.github.com/repos/acme/widgets/contributors"
                 (request_headers (VStr "t0k3n"))]
              [HttpGet
                 "https://api.github.com/repos/acme/widgets/collaborators"
                 (request_headers (VStr "t0k3n"));
               PrintFetchFailed "reviewers" 403 "Forbidden"]
              [ {[ "login" := VStr "alice"; "bio" := VStr "";
                   "role" := VStr "contributors" ]};
                {[ "login" := VStr "bob"; "bio" := VNone;
                   "role" := VStr "contributors" ]} ]
              [])
    as (docs1 & docs2 & _ & _ & Hl1 & Hl2 & Hmain).
  - vm_compute. reflexivity.
  - vm_compute. reflexivity.
  - discriminate.
  - apply Hmain. unfold counting_build.
    by rewrite length_app, Hl1, Hl2.
Defined.
